(** * NbEmailPassAuthProvider: the email/password authentication provider

    A shallow embedding of
    [src/framework/auth/providers/email-pass-auth.provider.ts] and the
    properties of its six actions: [authenticate] (login), [register],
    [requestPassword], [resetPassword], [logout] and [refreshToken].

    - JavaScript values are an inductive type; objects are finite maps from
      property names to values.
    - An [Observable] is a single-shot computation: subscribing to it yields
      one notification ([Next] or [Error]) and extends a trace of the effects
      the pipeline performs (requests handed to the HTTP client, console
      warnings, calls of the configured getters).
    - The provider instance ([this]) is a record holding the merged
      configuration, the three configurable getters, the injected HTTP client
      and route, and the inherited [createFailResponse]. *)

From Stdlib Require Import Ascii.
From stdpp Require Import gmap strings list pretty.

Set Warnings "-register-all".
Local Open Scope Z_scope.
Local Open Scope string_scope.

(** ** JavaScript values *)

(** Numbers are the integers together with [NaN]; this is all the arithmetic
    the provider can reach (through [+] on two configuration values). *)
Inductive value : Type :=
| VUndefined
| VNull
| VBool (b : bool)
| VNum (n : Z)
| VNaN
| VStr (s : string)
| VArr (items : list value)
| VObj (fields : gmap string value).

(** An object literal. *)
Definition obj (fields : list (string * value)) : value :=
  VObj (list_to_map fields).

(** An array of strings, as in [defaultErrors] and [defaultMessages]. *)
Definition strings (l : list string) : value := VArr (VStr <$> l).

(** ToBoolean, as used by [if (x)] and [!x]. *)
Definition is_truthy (v : value) : bool :=
  match v with
  | VUndefined | VNull | VNaN => false
  | VBool b => b
  | VNum n => negb (Z.eqb n 0)
  | VStr s => negb (String.eqb s "")
  | VArr _ | VObj _ => true
  end.

(** ToString, as used by template literals, property keys and [+]. *)
Fixpoint to_string (v : value) : string :=
  match v with
  | VUndefined => "undefined"
  | VNull => "null"
  | VBool b => if b then "true" else "false"
  | VNum n => pretty n
  | VNaN => "NaN"
  | VStr s => s
  | VArr items =>
      String.concat ","
        (List.map (fun x => match x with
                            | VUndefined | VNull => ""
                            | _ => to_string x
                            end) items)
  | VObj _ => "[object Object]"
  end.

(** ToNumber on the values whose primitive is not a string; [None] is NaN. *)
Definition to_number (v : value) : option Z :=
  match v with
  | VNull => Some 0
  | VBool b => Some (if b then 1 else 0)
  | VNum n => Some n
  | _ => None
  end.

(** Strings, and arrays and objects (whose primitive is a string). *)
Definition has_string_primitive (v : value) : bool :=
  match v with
  | VStr _ | VArr _ | VObj _ => true
  | _ => false
  end.

(** The binary [+] operator. *)
Definition js_add (a b : value) : value :=
  if has_string_primitive a || has_string_primitive b
  then VStr (to_string a +:+ to_string b)
  else match to_number a, to_number b with
       | Some x, Some y => VNum (x + y)%Z
       | _, _ => VNaN
       end.

(** [s.split(sep)] for a one-character separator. *)
Fixpoint split (sep : Ascii.ascii) (s : string) : list string :=
  match s with
  | EmptyString => [EmptyString]
  | String c rest =>
      if Ascii.eqb c sep then EmptyString :: split sep rest
      else match split sep rest with
           | [] => [String c EmptyString]
           | w :: ws => String c w :: ws
           end
  end.

(** ** Responses, errors and results *)

Record HttpResponse : Type := { status : Z; body : value }.

Record HttpErrorResponse : Type := { error_status : Z; error : value }.

(** What flows through a pipeline or is thrown in it: a plain value, or an
    instance of [HttpResponse], [HttpErrorResponse] or [Error]. *)
Inductive any : Type :=
| Plain (v : value)
| Response (r : HttpResponse)
| ErrorResponse (r : HttpErrorResponse)
| JsError (message : string).

(** Property access [x.name]. *)
Definition member (x : any) (name : string) : value :=
  match x with
  | Plain (VObj fields) => default VUndefined (fields !! name)
  | Plain _ => VUndefined
  | Response r =>
      if String.eqb name "body" then body r
      else if String.eqb name "status" then VNum (status r)
      else VUndefined
  | ErrorResponse r =>
      if String.eqb name "error" then error r
      else if String.eqb name "status" then VNum (error_status r)
      else VUndefined
  | JsError message =>
      if String.eqb name "message" then VStr message else VUndefined
  end.

(** Modelled from the spec: [NbAuthResult] of [services/auth-result], which
    this file only constructs. It is the Result of the data model: the six
    constructor arguments; an argument left out is [undefined]. *)
Record NbAuthResult : Type := {
  success : bool;
  response : any;
  redirect : value;
  errors : value;
  messages : value;
  token : value
}.

(** ** Observables *)

Inductive event : Type :=
| HttpRequest (method url : value) (body : option value)
| ConsoleWarn (text : string)
| GetterCall (key : string) (module : string) (res : any).

Inductive notification (A : Type) : Type :=
| Next (a : A)
| Error (e : any).
Arguments Next {A} a.
Arguments Error {A} e.

Definition Observable (A : Type) : Type :=
  list event → notification A * list event.

Module Rx.

(** [observableOf(a)]. *)
Definition observableOf {A} (a : A) : Observable A := λ t, (Next a, t).

(** [throw e] inside a callback. *)
Definition throw {A} (e : any) : Observable A := λ t, (Error e, t).

(** An effect performed by a callback. *)
Definition perform (e : event) : Observable unit := λ t, (Next tt, (t ++ [e])%list).

Definition bind {A B} (f : A → Observable B) (src : Observable A)
  : Observable B :=
  λ t, match src t with
       | (Next a, t') => f a t'
       | (Error e, t') => (Error e, t')
       end.

(** [map(project)]: the callback is a computation that returns or throws. *)
Definition map {A B} (project : A → Observable B) : Observable A → Observable B :=
  bind project.

(** [switchMap(project)] on a source with a single emission. *)
Definition switchMap {A B} (project : A → Observable B)
  : Observable A → Observable B :=
  bind project.

(** [catchError(selector)]. *)
Definition catchError {A} (selector : any → Observable A) (src : Observable A)
  : Observable A :=
  λ t, match src t with
       | (Next a, t') => (Next a, t')
       | (Error e, t') => selector e t'
       end.

End Rx.

#[global] Instance Observable_ret : MRet Observable := @Rx.observableOf.
#[global] Instance Observable_bind : MBind Observable := @Rx.bind.

(** [source.pipe(op1, op2, ...)]. *)
Notation "src |> op" := (op src) (at level 45, left associativity, only parsing).

(** ** The provider *)

(** A configured getter: the one of [defaultConfig], or a function supplied by
    the application together with its source text. *)
Inductive getter (A : Type) : Type :=
| DefaultGetter
| CustomGetter (source : string) (fn : string → A → value).
Arguments DefaultGetter {A}.
Arguments CustomGetter {A} source fn.

(** The outcome the HTTP client has for a request: the response, or what its
    observable fails with. *)
Definition HttpClient : Type :=
  value → value → option value → HttpResponse + any.

Record NbEmailPassAuthProvider : Type := {
  (** the merged configuration, getters apart *)
  config : value;
  (** [token.getter], [errors.getter], [messages.getter] *)
  token_getter : getter any;
  errors_getter : getter HttpErrorResponse;
  messages_getter : getter any;
  (** the injected [HttpClient] and [ActivatedRoute] *)
  http : HttpClient;
  queryParams : gmap string value;
  (** inherited from [NbAbstractAuthProvider]; [undefined] when called
      without argument *)
  createFailResponse : value → any
}.

(** ** Extractors *)

Fixpoint walk (level : value) (keys : list string) : option value :=
  match keys with
  | [] => Some level
  | k :: rest =>
      match level with
      | VObj fields =>
          match fields !! k with
          | Some VUndefined | None => None
          | Some v => walk v rest
          end
      | _ => None
      end
  end.

(** Modelled from the spec: [getDeepFromObject] of [../helpers]. It walks
    [object] along the dotted [name]; if the final value is present it is
    returned; if it is absent or the walk fails at any segment, the fallback
    is returned, or [undefined] if no fallback is given. *)
Definition getDeepFromObject (object : value) (name : string)
    (defaultValue : option value) : value :=
  match walk object (split "."%char name) with
  | Some v => v
  | None => default VUndefined defaultValue
  end.

(** Modelled from the spec: [getConfigValue] of [NbAbstractAuthProvider]. It
    resolves the dotted [key] by walking the merged configuration segment by
    segment, and returns [undefined] when a segment is missing. *)
Definition getConfigValue (this : NbEmailPassAuthProvider) (key : string)
  : value :=
  getDeepFromObject (config this) key None.

(** The getters of [defaultConfig]; a getter supplied by the application
    replaces them. Getters are pure functions of the module name and the
    response. The configured [key] is a string by its declared type and is
    read as one. *)
Definition tokenGetter (this : NbEmailPassAuthProvider) (module : string)
    (res : any) : value :=
  match token_getter this with
  | DefaultGetter =>
      getDeepFromObject (member res "body")
        (to_string (getConfigValue this "token.key")) None
  | CustomGetter _ fn => fn module res
  end.

Definition errorsGetter (this : NbEmailPassAuthProvider) (module : string)
    (res : HttpErrorResponse) : value :=
  match errors_getter this with
  | DefaultGetter =>
      getDeepFromObject (error res)
        (to_string (getConfigValue this "errors.key"))
        (Some (getConfigValue this (module +:+ ".defaultErrors")))
  | CustomGetter _ fn => fn module res
  end.

Definition messagesGetter (this : NbEmailPassAuthProvider) (module : string)
    (res : any) : value :=
  match messages_getter this with
  | DefaultGetter =>
      getDeepFromObject (member res "body")
        (to_string (getConfigValue this "messages.key"))
        (Some (getConfigValue this (module +:+ ".defaultMessages")))
  | CustomGetter _ fn => fn module res
  end.

(** The text a getter has inside a template literal: its source. *)
Definition getter_text {A} (default_source : string) (g : getter A) : string :=
  match g with
  | DefaultGetter => default_source
  | CustomGetter source _ => source
  end.

Definition default_token_getter_source : string :=
  "(module, res) => getDeepFromObject(res.body, this.getConfigValue('token.key'))".

(** Calls of the configured getters, recorded in the trace. *)
Definition callTokenGetter (this : NbEmailPassAuthProvider) (module : string)
    (res : any) : Observable value :=
  _ ← Rx.perform (GetterCall "token.getter" module res);
  mret (tokenGetter this module res).

Definition callErrorsGetter (this : NbEmailPassAuthProvider) (module : string)
    (res : HttpErrorResponse) : Observable value :=
  _ ← Rx.perform (GetterCall "errors.getter" module (ErrorResponse res));
  mret (errorsGetter this module res).

Definition callMessagesGetter (this : NbEmailPassAuthProvider) (module : string)
    (res : any) : Observable value :=
  _ ← Rx.perform (GetterCall "messages.getter" module res);
  mret (messagesGetter this module res).

(** [this.http.request(method, url, {body, observe: 'response'})]: on
    subscription the request is handed to the client, whose observable emits
    the response or fails. [body = None] is a call without a body option. *)
Definition request (this : NbEmailPassAuthProvider) (method url : value)
    (body : option value) : Observable any :=
  λ t, (match http this method url body with
        | inl r => Next (Response r)
        | inr e => Error e
        end,
        (t ++ [HttpRequest method url body])%list).

Definition getActionEndpoint (this : NbEmailPassAuthProvider) (action : string)
  : value :=
  let actionEndpoint := getConfigValue this (action +:+ ".endpoint") in
  let baseEndpoint := getConfigValue this "baseEndpoint" in
  js_add baseEndpoint actionEndpoint.

Definition newline : string := String (ascii_of_nat 10) EmptyString.

Definition token_warning (key : value) (getter_source : string) : string :=
  "NbEmailPassAuthProvider:" +:+ newline +:+
  "                          Token is not provided under '" +:+ to_string key
    +:+ "' key" +:+ newline +:+
  "                          with getter '" +:+ getter_source
    +:+ "', check your auth configuration.".

Definition validateToken (this : NbEmailPassAuthProvider) (module : string)
  : Observable any → Observable any :=
  Rx.map (λ res,
    token ← callTokenGetter this module res;
    if negb (is_truthy token) then
      let key := getConfigValue this "token.key" in
      _ ← Rx.perform (ConsoleWarn
             (token_warning key
                (getter_text default_token_getter_source (token_getter this))));
      Rx.throw (JsError "Could not extract token from the response.")
    else mret res).

(** The [catchError] callback of an action; the source repeats it in every
    method with the module name changed. *)
Definition recover (this : NbEmailPassAuthProvider) (module : string)
    (res : any) : Observable NbAuthResult :=
  errors ← match res with
           | ErrorResponse r => callErrorsGetter this module r
           | _ => mret (VArr [VStr "Something went wrong."])
           end;
  Rx.observableOf
    {| success := false;
       response := res;
       redirect := getConfigValue this (module +:+ ".redirect.failure");
       errors := errors;
       messages := VUndefined;
       token := VUndefined |}.

(** ** The six actions

    Each function is the method followed by the subscription to the
    observable it returns. [data] is [VUndefined] when the argument is left
    out. *)

Definition authenticate (this : NbEmailPassAuthProvider) (data : value)
  : Observable NbAuthResult :=
  let method := getConfigValue this "login.method" in
  let url := getActionEndpoint this "login" in
  request this method url (Some data)
  |> Rx.map (λ res,
       if is_truthy (getConfigValue this "login.alwaysFail")
       then Rx.throw (createFailResponse this data)
       else mret res)
  |> validateToken this "login"
  |> Rx.map (λ res,
       messages ← callMessagesGetter this "login" res;
       token ← callTokenGetter this "login" res;
       mret {| success := true;
               response := res;
               redirect := getConfigValue this "login.redirect.success";
               errors := VArr [];
               messages := messages;
               token := token |})
  |> Rx.catchError (recover this "login").

Definition register (this : NbEmailPassAuthProvider) (data : value)
  : Observable NbAuthResult :=
  let method := getConfigValue this "register.method" in
  let url := getActionEndpoint this "register" in
  request this method url (Some data)
  |> Rx.map (λ res,
       if is_truthy (getConfigValue this "register.alwaysFail")
       then Rx.throw (createFailResponse this data)
       else mret res)
  |> validateToken this "register"
  |> Rx.map (λ res,
       messages ← callMessagesGetter this "register" res;
       token ← callTokenGetter this "register" res;
       mret {| success := true;
               response := res;
               redirect := getConfigValue this "register.redirect.success";
               errors := VArr [];
               messages := messages;
               token := token |})
  |> Rx.catchError (recover this "register").

Definition requestPassword (this : NbEmailPassAuthProvider) (data : value)
  : Observable NbAuthResult :=
  let method := getConfigValue this "requestPass.method" in
  let url := getActionEndpoint this "requestPass" in
  request this method url (Some data)
  |> Rx.map (λ res,
       if is_truthy (getConfigValue this "requestPass.alwaysFail")
       then Rx.throw (createFailResponse this VUndefined)
       else mret res)
  |> Rx.map (λ res,
       messages ← callMessagesGetter this "requestPass" res;
       mret {| success := true;
               response := res;
               redirect := getConfigValue this "requestPass.redirect.success";
               errors := VArr [];
               messages := messages;
               token := VUndefined |})
  |> Rx.catchError (recover this "requestPass").

(** [data[tokenKey] = this.route.snapshot.queryParams[tokenKey]] on the
    object the caller passed; [None] is the argument left out, for which the
    parameter defaults to a fresh empty object. A missing query parameter
    reads as [undefined]. *)
Definition inject_reset_token (this : NbEmailPassAuthProvider)
    (data : option (gmap string value)) : gmap string value :=
  let data := default ∅ data in
  let tokenKey := to_string (getConfigValue this "resetPass.resetPasswordTokenKey") in
  <[tokenKey := default VUndefined (queryParams this !! tokenKey)]> data.

Definition resetPassword (this : NbEmailPassAuthProvider)
    (data : option (gmap string value)) : Observable NbAuthResult :=
  let data := inject_reset_token this data in
  let method := getConfigValue this "resetPass.method" in
  let url := getActionEndpoint this "resetPass" in
  request this method url (Some (VObj data))
  |> Rx.map (λ res,
       if is_truthy (getConfigValue this "resetPass.alwaysFail")
       then Rx.throw (createFailResponse this VUndefined)
       else mret res)
  |> Rx.map (λ res,
       messages ← callMessagesGetter this "resetPass" res;
       mret {| success := true;
               response := res;
               redirect := getConfigValue this "resetPass.redirect.success";
               errors := VArr [];
               messages := messages;
               token := VUndefined |})
  |> Rx.catchError (recover this "resetPass").

Definition logout (this : NbEmailPassAuthProvider) : Observable NbAuthResult :=
  let method := getConfigValue this "logout.method" in
  let url := getActionEndpoint this "logout" in
  Rx.observableOf (Plain (VObj ∅))
  |> Rx.switchMap (λ res,
       if negb (is_truthy url)
       then Rx.observableOf res
       else request this method url None)
  |> Rx.map (λ res,
       if is_truthy (getConfigValue this "logout.alwaysFail")
       then Rx.throw (createFailResponse this VUndefined)
       else mret res)
  |> Rx.map (λ res,
       messages ← callMessagesGetter this "logout" res;
       mret {| success := true;
               response := res;
               redirect := getConfigValue this "logout.redirect.success";
               errors := VArr [];
               messages := messages;
               token := VUndefined |})
  |> Rx.catchError (recover this "logout").

Definition refreshToken (this : NbEmailPassAuthProvider) (data : value)
  : Observable NbAuthResult :=
  let method := getConfigValue this "refreshToken.method" in
  let url := getActionEndpoint this "refreshToken" in
  request this method url (Some data)
  |> Rx.map (λ res,
       if is_truthy (getConfigValue this "refreshToken.alwaysFail")
       then Rx.throw (createFailResponse this data)
       else mret res)
  |> validateToken this "refreshToken"
  |> Rx.map (λ res,
       messages ← callMessagesGetter this "refreshToken" res;
       token ← callTokenGetter this "refreshToken" res;
       mret {| success := true;
               response := res;
               redirect := getConfigValue this "refreshToken.redirect.success";
               errors := VArr [];
               messages := messages;
               token := token |})
  |> Rx.catchError (recover this "refreshToken").

(** ** The default configuration *)

Definition defaultConfig : value :=
  obj [
    ("baseEndpoint", VStr "/api/auth/");
    ("login", obj [
       ("alwaysFail", VBool false);
       ("rememberMe", VBool true);
       ("endpoint", VStr "login");
       ("method", VStr "post");
       ("redirect", obj [("success", VStr "/"); ("failure", VNull)]);
       ("defaultErrors",
        strings ["Login/Email combination is not correct, please try again."]);
       ("defaultMessages", strings ["You have been successfully logged in."])]);
    ("register", obj [
       ("alwaysFail", VBool false);
       ("rememberMe", VBool true);
       ("endpoint", VStr "register");
       ("method", VStr "post");
       ("redirect", obj [("success", VStr "/"); ("failure", VNull)]);
       ("defaultErrors", strings ["Something went wrong, please try again."]);
       ("defaultMessages", strings ["You have been successfully registered."])]);
    ("logout", obj [
       ("alwaysFail", VBool false);
       ("endpoint", VStr "logout");
       ("method", VStr "delete");
       ("redirect", obj [("success", VStr "/"); ("failure", VNull)]);
       ("defaultErrors", strings ["Something went wrong, please try again."]);
       ("defaultMessages", strings ["You have been successfully logged out."])]);
    ("requestPass", obj [
       ("endpoint", VStr "request-pass");
       ("method", VStr "post");
       ("redirect", obj [("success", VStr "/"); ("failure", VNull)]);
       ("defaultErrors", strings ["Something went wrong, please try again."]);
       ("defaultMessages",
        strings ["Reset password instructions have been sent to your email."])]);
    ("resetPass", obj [
       ("endpoint", VStr "reset-pass");
       ("method", VStr "put");
       ("redirect", obj [("success", VStr "/"); ("failure", VNull)]);
       ("resetPasswordTokenKey", VStr "reset_password_token");
       ("defaultErrors", strings ["Something went wrong, please try again."]);
       ("defaultMessages",
        strings ["Your password has been successfully changed."])]);
    ("refreshToken", obj [
       ("endpoint", VStr "refresh-token");
       ("method", VStr "post");
       ("redirect", obj [("success", VNull); ("failure", VNull)]);
       ("defaultErrors", strings ["Something went wrong, please try again."]);
       ("defaultMessages",
        strings ["Your token has been successfully refreshed."])]);
    ("token", obj [("key", VStr "data.token")]);
    ("errors", obj [("key", VStr "data.errors")]);
    ("messages", obj [("key", VStr "data.messages")])
  ].

(** A provider left at its defaults, around a given client, route and
    [createFailResponse]. *)
Definition defaultProvider (http : HttpClient) (queryParams : gmap string value)
    (createFailResponse : value → any) : NbEmailPassAuthProvider :=
  {| config := defaultConfig;
     token_getter := DefaultGetter;
     errors_getter := DefaultGetter;
     messages_getter := DefaultGetter;
     http := http;
     queryParams := queryParams;
     createFailResponse := createFailResponse |}.

(** [deepExtend] for one key of one module: the configuration [cfg] with
    [module.key] overridden. *)
Definition override (cfg : value) (module key : string) (v : value) : value :=
  match cfg with
  | VObj top =>
      match top !! module with
      | Some (VObj fields) => VObj (<[module := VObj (<[key := v]> fields)]> top)
      | _ => VObj (<[module := obj [(key, v)]]> top)
      end
  | _ => cfg
  end.

(** Sample collaborators used to exercise the properties. *)
Definition ok_client (body : value) : HttpClient :=
  λ _ _ _, inl {| status := 200; body := body |}.

Definition failing_client (e : any) : HttpClient := λ _ _ _, inr e.

Definition fail401 : value → any :=
  λ _, Response {| status := 401; body := VObj ∅ |}.

(** A top-level key of the configuration overridden. *)
Definition override_top (cfg : value) (key : string) (v : value) : value :=
  match cfg with
  | VObj top => VObj (<[key := v]> top)
  | _ => cfg
  end.

(** A provider with the configuration [cfg] and the default getters. *)
Definition provider_of (cfg : value) (client : HttpClient)
    (params : gmap string value) : NbEmailPassAuthProvider :=
  {| config := cfg;
     token_getter := DefaultGetter;
     errors_getter := DefaultGetter;
     messages_getter := DefaultGetter;
     http := client;
     queryParams := params;
     createFailResponse := fail401 |}.

Definition token_body : value := obj [("data", obj [("token", VStr "abc")])].

Definition credentials : value :=
  obj [("email", VStr "user@example.com"); ("password", VStr "secret")].

Definition unknown_email : HttpErrorResponse :=
  {| error_status := 400;
     error := obj [("data", obj [("errors", strings ["Unknown email"])])] |}.

Definition new_password : gmap string value :=
  {[ "password" := VStr "new"; "reset_password_token" := VStr "stale" ]}.

(** Providers for the scenarios below. *)
Definition register_always_failing : NbEmailPassAuthProvider :=
  provider_of (override defaultConfig "register" "alwaysFail" (VBool true))
    (ok_client token_body) ∅.

Definition login_always_failing : NbEmailPassAuthProvider :=
  provider_of (override defaultConfig "login" "alwaysFail" (VBool true))
    (ok_client token_body) ∅.

Definition answering (body : value) : NbEmailPassAuthProvider :=
  provider_of defaultConfig (ok_client body) ∅.

Definition unreachable : NbEmailPassAuthProvider :=
  provider_of defaultConfig (failing_client (JsError "Network unreachable")) ∅.

Definition rejecting : NbEmailPassAuthProvider :=
  provider_of defaultConfig (failing_client (ErrorResponse unknown_email)) ∅.

Definition local_logout : NbEmailPassAuthProvider :=
  provider_of
    (override_top (override defaultConfig "logout" "endpoint" (VStr ""))
       "baseEndpoint" (VStr ""))
    (ok_client (obj [])) ∅.

Definition logout_endpoint (endpoint : value) : NbEmailPassAuthProvider :=
  provider_of (override defaultConfig "logout" "endpoint" endpoint)
    (ok_client (obj [])) ∅.

Definition reset_route (params : gmap string value) : NbEmailPassAuthProvider :=
  provider_of defaultConfig (ok_client (obj [])) params.

(** ** Vocabulary of the statements *)

(** The subscriber receives a result whose [success] is [false]. *)
Definition fails (o : Observable NbAuthResult) (t : list event) : Prop :=
  ∃ r t', o t = (Next r, t') ∧ success r = false.

(** The subscriber receives exactly the result [r]. *)
Definition yields (o : Observable NbAuthResult) (t : list event)
    (r : NbAuthResult) : Prop :=
  ∃ t', o t = (Next r, t').

(** The configuration value under [key] is truthy. *)
Definition enabled (this : NbEmailPassAuthProvider) (key : string) : Prop :=
  is_truthy (getConfigValue this key) = true.

(** The four failure kinds of an invocation whose client outcome is
    [outcome]: the flag under [flag] is set, the client fails with a
    structured error response, the client fails with something else, or
    the response carries no token under the getter [get]. *)
Definition failure_kind (this : NbEmailPassAuthProvider) (flag : string)
    (outcome : HttpResponse + any) (get : option (any → value)) : Prop :=
  enabled this flag
  ∨ (∃ e, outcome = inr (ErrorResponse e))
  ∨ (∃ e, outcome = inr e ∧ ∀ r, e ≠ ErrorResponse r)
  ∨ (∃ res f, outcome = inl res ∧ get = Some f
              ∧ is_truthy (f (Response res)) = false).

(** The [errors] of a failed result, read off its [response]: what the errors
    getter makes of an [HttpErrorResponse], the fixed message otherwise. *)
Definition errors_of (this : NbEmailPassAuthProvider) (module : string)
    (r : NbAuthResult) : Prop :=
  match response r with
  | ErrorResponse e => errors r = errorsGetter this module e
  | _ => errors r = VArr [VStr "Something went wrong."]
  end.

(** What the failure branch of an invocation catches. With the client outcome
    [outcome], [e] is: what the client failed with; or, when the client
    answered and the flag under [flag] is set, the [synthetic] failure; or,
    when the client answered, the flag is falsy and the getter [get] finds no
    token in the response, the [Error] of token validation. *)
Definition thrown_in (this : NbEmailPassAuthProvider) (flag : string)
    (outcome : HttpResponse + any) (get : option (any → value))
    (synthetic : any) (e : any) : Prop :=
  outcome = inr e
  ∨ (∃ res, outcome = inl res ∧ enabled this flag ∧ e = synthetic)
  ∨ (∃ res f, outcome = inl res
              ∧ is_truthy (getConfigValue this flag) = false
              ∧ get = Some f
              ∧ is_truthy (f (Response res)) = false
              ∧ e = JsError "Could not extract token from the response.").

(** The result the failure branch of [module] makes of the caught [e]: a
    failure carrying [e], whose errors are the errors getter's for
    [(module, e)] when [e] is an [HttpErrorResponse] and the fixed message
    otherwise. *)
Definition recovered (this : NbEmailPassAuthProvider) (module : string)
    (e : any) (r : NbAuthResult) : Prop :=
  success r = false
  ∧ response r = e
  ∧ (∀ he, e = ErrorResponse he → errors r = errorsGetter this module he)
  ∧ ((∀ he, e ≠ ErrorResponse he) →
     errors r = VArr [VStr "Something went wrong."]).

Definition is_request (e : event) : bool :=
  match e with HttpRequest _ _ _ => true | _ => false end.

Definition is_token_getter_call (e : event) : bool :=
  match e with
  | GetterCall key _ _ => String.eqb key "token.getter"
  | _ => false
  end.

Definition is_warning (e : event) : bool :=
  match e with ConsoleWarn _ => true | _ => false end.


(** The configuration keys the method of [module] and the default getters
    read when it runs. *)
Definition reads (module : string) : list string :=
  [ "baseEndpoint";
    module +:+ ".endpoint";
    module +:+ ".method";
    module +:+ ".alwaysFail";
    module +:+ ".redirect.success";
    module +:+ ".redirect.failure";
    module +:+ ".defaultErrors";
    module +:+ ".defaultMessages";
    "token.key";
    "errors.key";
    "messages.key" ].

(** Two providers resolve every key of [keys] to the same value. *)
Definition same_config_on (p q : NbEmailPassAuthProvider)
    (keys : list string) : Prop :=
  Forall (λ k, getConfigValue p k = getConfigValue q k) keys.

(** Two providers have the same getters, client, route and
    [createFailResponse]. *)
Definition same_collaborators (p q : NbEmailPassAuthProvider) : Prop :=
  token_getter p = token_getter q
  ∧ errors_getter p = errors_getter q
  ∧ messages_getter p = messages_getter q
  ∧ http p = http q
  ∧ queryParams p = queryParams q
  ∧ createFailResponse p = createFailResponse q.

(** ** Proof steps *)

(** Unfold an action down to the client's outcome and the tests on
    configuration values, which stay folded. *)
Ltac run_pipeline :=
  cbv [fails yields enabled
       authenticate register requestPassword resetPassword logout refreshToken
       validateToken recover request
       callTokenGetter callErrorsGetter callMessagesGetter
       Rx.map Rx.switchMap Rx.catchError Rx.bind Rx.observableOf Rx.throw
       Rx.perform mbind mret Observable_bind Observable_ret
       String.append String.app] in *.

(** Case analysis on what was thrown, for the [instanceof] test. *)
Ltac caught :=
  match goal with
  | |- context [match ?e with Plain _ => _ | _ => _ end] => destruct e
  end.

Ltac found := repeat (eexists || split); try reflexivity.

(** One step through a pipeline: use what is known about the client and the
    configuration, and split on what is not. *)
Ltac step :=
  match goal with
  | H : is_truthy ?v = _ |- context [is_truthy ?v] => rewrite H
  | H : http ?p ?m ?u ?b = _ |- context [http ?p ?m ?u ?b] => rewrite H
  | |- context [negb true] => cbn [negb]
  | |- context [negb false] => cbn [negb]
  | |- context [http ?p ?m ?u ?b] => destruct (http p m u b) eqn:?
  | |- context [is_truthy ?v] => destruct (is_truthy v) eqn:?
  | |- _ => caught
  end.

Ltac steps := run_pipeline; repeat step.

Section Actions.

Variable this : NbEmailPassAuthProvider.

(** *** The failure kinds *)

(** C1. For each of the six actions, when the action's [alwaysFail] flag is
    true the result handed to the subscriber has [success = false],
    whatever the client does with the request. *)
Theorem alwaysFail_forces_failure :
  (enabled this "login.alwaysFail" →
     ∀ data t, fails (authenticate this data) t) ∧
  (enabled this "register.alwaysFail" →
     ∀ data t, fails (register this data) t) ∧
  (enabled this "logout.alwaysFail" →
     ∀ t, fails (logout this) t) ∧
  (enabled this "requestPass.alwaysFail" →
     ∀ data t, fails (requestPassword this data) t) ∧
  (enabled this "resetPass.alwaysFail" →
     ∀ data t, fails (resetPassword this data) t) ∧
  (enabled this "refreshToken.alwaysFail" →
     ∀ data t, fails (refreshToken this data) t).
Proof.
  repeat split; intros Hfail; intros; steps; found.
Qed.

(** C4. For login, register and refreshToken, when the client answers the
    request with a response from which the configured token getter extracts
    a falsy value, the result has [success = false]. *)
Theorem missing_token_fails :
  (∀ data t res,
     http this (getConfigValue this "login.method")
       (getActionEndpoint this "login") (Some data) = inl res →
     is_truthy (tokenGetter this "login" (Response res)) = false →
     fails (authenticate this data) t) ∧
  (∀ data t res,
     http this (getConfigValue this "register.method")
       (getActionEndpoint this "register") (Some data) = inl res →
     is_truthy (tokenGetter this "register" (Response res)) = false →
     fails (register this data) t) ∧
  (∀ data t res,
     http this (getConfigValue this "refreshToken.method")
       (getActionEndpoint this "refreshToken") (Some data) = inl res →
     is_truthy (tokenGetter this "refreshToken" (Response res)) = false →
     fails (refreshToken this data) t).
Proof.
  repeat split; intros data t res Hres Htoken; steps; found.
Qed.

(** C7. Every action hands the subscriber a result ([Next]), never an error
    notification, and in each of the four failure kinds that result has
    [success = false]. Token validation applies to login, register and
    refreshToken; logout has a client outcome only when its URL is truthy. *)
Theorem failures_are_recovered :
  (∀ data t, ∃ r t',
     authenticate this data t = (Next r, t') ∧
     (failure_kind this "login.alwaysFail"
        (http this (getConfigValue this "login.method")
           (getActionEndpoint this "login") (Some data))
        (Some (tokenGetter this "login")) → success r = false)) ∧
  (∀ data t, ∃ r t',
     register this data t = (Next r, t') ∧
     (failure_kind this "register.alwaysFail"
        (http this (getConfigValue this "register.method")
           (getActionEndpoint this "register") (Some data))
        (Some (tokenGetter this "register")) → success r = false)) ∧
  (∀ data t, ∃ r t',
     requestPassword this data t = (Next r, t') ∧
     (failure_kind this "requestPass.alwaysFail"
        (http this (getConfigValue this "requestPass.method")
           (getActionEndpoint this "requestPass") (Some data))
        None → success r = false)) ∧
  (∀ data t, ∃ r t',
     resetPassword this data t = (Next r, t') ∧
     (failure_kind this "resetPass.alwaysFail"
        (http this (getConfigValue this "resetPass.method")
           (getActionEndpoint this "resetPass")
           (Some (VObj (inject_reset_token this data))))
        None → success r = false)) ∧
  (∀ t, ∃ r t',
     logout this t = (Next r, t') ∧
     (enabled this "logout.alwaysFail" → success r = false) ∧
     (is_truthy (getActionEndpoint this "logout") = true →
      failure_kind this "logout.alwaysFail"
        (http this (getConfigValue this "logout.method")
           (getActionEndpoint this "logout") None)
        None → success r = false)) ∧
  (∀ data t, ∃ r t',
     refreshToken this data t = (Next r, t') ∧
     (failure_kind this "refreshToken.alwaysFail"
        (http this (getConfigValue this "refreshToken.method")
           (getActionEndpoint this "refreshToken") (Some data))
        (Some (tokenGetter this "refreshToken")) → success r = false)).
Proof.
  unfold failure_kind.
  repeat split; intros; steps; do 2 eexists;
    (split; [reflexivity|]); cbn [success];
    try done; repeat split; try done;
    intros; destruct_or?; destruct_and?;
    repeat match goal with H : ∃ _, _ |- _ => destruct H end;
    destruct_and?; simplify_eq; congruence.
Qed.

(** C10. For login, register and refreshToken, when the flag is set and the
    client answers with a response, what reaches the failure branch is
    [createFailResponse(data)], and between the request and the result the
    token getter is not called and no token warning is written. *)
Theorem alwaysFail_precedes_token_validation :
  (∀ data t res,
     enabled this "login.alwaysFail" →
     http this (getConfigValue this "login.method")
       (getActionEndpoint this "login") (Some data) = inl res →
     ∃ r extra,
       authenticate this data t = (Next r, (t ++ extra)%list) ∧
       success r = false ∧
       response r = createFailResponse this data ∧
       Forall (λ e, is_token_getter_call e = false ∧ is_warning e = false)
         extra) ∧
  (∀ data t res,
     enabled this "register.alwaysFail" →
     http this (getConfigValue this "register.method")
       (getActionEndpoint this "register") (Some data) = inl res →
     ∃ r extra,
       register this data t = (Next r, (t ++ extra)%list) ∧
       success r = false ∧
       response r = createFailResponse this data ∧
       Forall (λ e, is_token_getter_call e = false ∧ is_warning e = false)
         extra) ∧
  (∀ data t res,
     enabled this "refreshToken.alwaysFail" →
     http this (getConfigValue this "refreshToken.method")
       (getActionEndpoint this "refreshToken") (Some data) = inl res →
     ∃ r extra,
       refreshToken this data t = (Next r, (t ++ extra)%list) ∧
       success r = false ∧
       response r = createFailResponse this data ∧
       Forall (λ e, is_token_getter_call e = false ∧ is_warning e = false)
         extra).
Proof.
  repeat split; intros data t res Hfail Hres; steps;
    rewrite <- ?app_assoc; do 2 eexists;
    (split; [reflexivity|]); repeat split; repeat constructor.
Qed.

(** *** The failure branch *)

(** C6. On the failure branch of every action: whatever is caught (the
    client's failure, the synthetic failure of [alwaysFail], or the [Error]
    of token validation), the action hands back a failed result carrying it;
    if it is an [HttpErrorResponse], [errors] is the configured errors getter
    applied to the action's name and that response, and otherwise [errors] is
    ["Something went wrong."], whatever the configuration. Conversely, the
    [errors] of every failed result are those of the [response] it
    carries. *)
Theorem failure_branch_errors :
  (∀ data t e,
     thrown_in this "login.alwaysFail"
       (http this (getConfigValue this "login.method")
          (getActionEndpoint this "login") (Some data))
       (Some (tokenGetter this "login")) (createFailResponse this data) e →
     ∃ r t', authenticate this data t = (Next r, t')
             ∧ recovered this "login" e r) ∧
  (∀ data t e,
     thrown_in this "register.alwaysFail"
       (http this (getConfigValue this "register.method")
          (getActionEndpoint this "register") (Some data))
       (Some (tokenGetter this "register")) (createFailResponse this data) e →
     ∃ r t', register this data t = (Next r, t')
             ∧ recovered this "register" e r) ∧
  (∀ data t e,
     thrown_in this "requestPass.alwaysFail"
       (http this (getConfigValue this "requestPass.method")
          (getActionEndpoint this "requestPass") (Some data))
       None (createFailResponse this VUndefined) e →
     ∃ r t', requestPassword this data t = (Next r, t')
             ∧ recovered this "requestPass" e r) ∧
  (∀ data t e,
     thrown_in this "resetPass.alwaysFail"
       (http this (getConfigValue this "resetPass.method")
          (getActionEndpoint this "resetPass")
          (Some (VObj (inject_reset_token this data))))
       None (createFailResponse this VUndefined) e →
     ∃ r t', resetPassword this data t = (Next r, t')
             ∧ recovered this "resetPass" e r) ∧
  (∀ t e,
     (if is_truthy (getActionEndpoint this "logout")
      then thrown_in this "logout.alwaysFail"
             (http this (getConfigValue this "logout.method")
                (getActionEndpoint this "logout") None)
             None (createFailResponse this VUndefined) e
      else enabled this "logout.alwaysFail"
           ∧ e = createFailResponse this VUndefined) →
     ∃ r t', logout this t = (Next r, t')
             ∧ recovered this "logout" e r) ∧
  (∀ data t e,
     thrown_in this "refreshToken.alwaysFail"
       (http this (getConfigValue this "refreshToken.method")
          (getActionEndpoint this "refreshToken") (Some data))
       (Some (tokenGetter this "refreshToken"))
       (createFailResponse this data) e →
     ∃ r t', refreshToken this data t = (Next r, t')
             ∧ recovered this "refreshToken" e r) ∧
  (∀ data t r t', authenticate this data t = (Next r, t') →
     success r = false → errors_of this "login" r) ∧
  (∀ data t r t', register this data t = (Next r, t') →
     success r = false → errors_of this "register" r) ∧
  (∀ data t r t', requestPassword this data t = (Next r, t') →
     success r = false → errors_of this "requestPass" r) ∧
  (∀ data t r t', resetPassword this data t = (Next r, t') →
     success r = false → errors_of this "resetPass" r) ∧
  (∀ t r t', logout this t = (Next r, t') →
     success r = false → errors_of this "logout" r) ∧
  (∀ data t r t', refreshToken this data t = (Next r, t') →
     success r = false → errors_of this "refreshToken" r).
Proof.
  unfold thrown_in, recovered.
  split_and!;
    [ intros data t e Hthrown | intros data t e Hthrown
    | intros data t e Hthrown | intros data t e Hthrown
    | intros t e Hthrown;
      destruct (is_truthy (getActionEndpoint this "logout")) eqn:Hurl;
      [|destruct Hthrown as [Hflag ->]]
    | intros data t e Hthrown | .. ];
    try (intros until t'; steps; intros; simplify_eq/=; done);
    try (destruct Hthrown
           as [Hclient | [(res & Hclient & Hflag & ->)
                         | (res & f & Hclient & Hflag & Hget & Htoken & ->)]];
         simplify_eq);
    steps; do 2 eexists; (split; [reflexivity|]);
    cbn [success response errors];
    (split_and!;
     [ reflexivity | reflexivity
     | intros he Hhe; by simplify_eq
     | intros Hother; first [reflexivity | by exfalso; eapply Hother] ]).
Qed.

(** *** The success branch *)

Lemma authenticate_success data t res :
  http this (getConfigValue this "login.method")
    (getActionEndpoint this "login") (Some data) = inl res →
  is_truthy (getConfigValue this "login.alwaysFail") = false →
  is_truthy (tokenGetter this "login" (Response res)) = true →
  yields (authenticate this data) t
    {| success := true;
       response := Response res;
       redirect := getConfigValue this "login.redirect.success";
       errors := VArr [];
       messages := messagesGetter this "login" (Response res);
       token := tokenGetter this "login" (Response res) |}.
Proof. intros Hres Hflag Htoken. steps. found. Qed.

Lemma register_success data t res :
  http this (getConfigValue this "register.method")
    (getActionEndpoint this "register") (Some data) = inl res →
  is_truthy (getConfigValue this "register.alwaysFail") = false →
  is_truthy (tokenGetter this "register" (Response res)) = true →
  yields (register this data) t
    {| success := true;
       response := Response res;
       redirect := getConfigValue this "register.redirect.success";
       errors := VArr [];
       messages := messagesGetter this "register" (Response res);
       token := tokenGetter this "register" (Response res) |}.
Proof. intros Hres Hflag Htoken. steps. found. Qed.

Lemma refreshToken_success data t res :
  http this (getConfigValue this "refreshToken.method")
    (getActionEndpoint this "refreshToken") (Some data) = inl res →
  is_truthy (getConfigValue this "refreshToken.alwaysFail") = false →
  is_truthy (tokenGetter this "refreshToken" (Response res)) = true →
  yields (refreshToken this data) t
    {| success := true;
       response := Response res;
       redirect := getConfigValue this "refreshToken.redirect.success";
       errors := VArr [];
       messages := messagesGetter this "refreshToken" (Response res);
       token := tokenGetter this "refreshToken" (Response res) |}.
Proof. intros Hres Hflag Htoken. steps. found. Qed.

Lemma requestPassword_success data t res :
  http this (getConfigValue this "requestPass.method")
    (getActionEndpoint this "requestPass") (Some data) = inl res →
  is_truthy (getConfigValue this "requestPass.alwaysFail") = false →
  yields (requestPassword this data) t
    {| success := true;
       response := Response res;
       redirect := getConfigValue this "requestPass.redirect.success";
       errors := VArr [];
       messages := messagesGetter this "requestPass" (Response res);
       token := VUndefined |}.
Proof. intros Hres Hflag. steps. found. Qed.

Lemma resetPassword_success data t res :
  http this (getConfigValue this "resetPass.method")
    (getActionEndpoint this "resetPass")
    (Some (VObj (inject_reset_token this data))) = inl res →
  is_truthy (getConfigValue this "resetPass.alwaysFail") = false →
  yields (resetPassword this data) t
    {| success := true;
       response := Response res;
       redirect := getConfigValue this "resetPass.redirect.success";
       errors := VArr [];
       messages := messagesGetter this "resetPass" (Response res);
       token := VUndefined |}.
Proof. intros Hres Hflag. steps. found. Qed.

(** The response logout works on: the client's, or the placeholder [{}]
    when the URL is falsy. *)
Lemma logout_success t res :
  (if is_truthy (getActionEndpoint this "logout")
   then ∃ r, http this (getConfigValue this "logout.method")
               (getActionEndpoint this "logout") None = inl r
             ∧ res = Response r
   else res = Plain (VObj ∅)) →
  is_truthy (getConfigValue this "logout.alwaysFail") = false →
  yields (logout this) t
    {| success := true;
       response := res;
       redirect := getConfigValue this "logout.redirect.success";
       errors := VArr [];
       messages := messagesGetter this "logout" res;
       token := VUndefined |}.
Proof.
  intros Hres Hflag. run_pipeline.
  destruct (is_truthy (getActionEndpoint this "logout")); cbn [negb].
  - destruct Hres as (r & Hr & ->). repeat step. found.
  - subst res. repeat step. found.
Qed.

(** *** Logout without a URL *)

(** The guard of logout is on the URL that [getActionEndpoint] builds,
    [baseEndpoint + logout.endpoint]. When that URL is falsy, logout hands no
    request to the client and runs the usual branching on the placeholder
    [{}]: with [alwaysFail] set the result is the failure built from
    [createFailResponse()] with the failure redirect, otherwise it is the
    success result with the success redirect. *)
Theorem logout_without_url t :
  is_truthy (getActionEndpoint this "logout") = false →
  ∃ r extra,
    logout this t = (Next r, (t ++ extra)%list) ∧
    Forall (λ e, is_request e = false) extra ∧
    if is_truthy (getConfigValue this "logout.alwaysFail")
    then success r = false
         ∧ response r = createFailResponse this VUndefined
         ∧ redirect r = getConfigValue this "logout.redirect.failure"
    else r = {| success := true;
                response := Plain (VObj ∅);
                redirect := getConfigValue this "logout.redirect.success";
                errors := VArr [];
                messages := messagesGetter this "logout" (Plain (VObj ∅));
                token := VUndefined |}.
Proof.
  intros Hurl. run_pipeline. rewrite Hurl. cbn [negb].
  destruct (is_truthy (getConfigValue this "logout.alwaysFail"));
    [caught|]; do 2 eexists;
    (split; [first [reflexivity | rewrite app_nil_r; reflexivity]|]);
    (split; [repeat constructor|]);
    repeat split.
Qed.

(** *** The body resetPassword sends *)

Lemma inject_reset_token_key data :
  let key := to_string (getConfigValue this "resetPass.resetPasswordTokenKey") in
  inject_reset_token this data !! key
  = Some (default VUndefined (queryParams this !! key)).
Proof. unfold inject_reset_token. apply lookup_insert_eq. Qed.

Lemma inject_reset_token_other data k :
  k ≠ to_string (getConfigValue this "resetPass.resetPasswordTokenKey") →
  inject_reset_token this data !! k = default ∅ data !! k.
Proof. intros Hk. unfold inject_reset_token. by apply lookup_insert_ne. Qed.

Lemma resetPassword_request data t :
  ∃ r rest,
    resetPassword this data t
    = (Next r,
       (t ++ HttpRequest (getConfigValue this "resetPass.method")
               (getActionEndpoint this "resetPass")
               (Some (VObj (inject_reset_token this data))) :: rest)%list)
    ∧ Forall (λ e, is_request e = false) rest.
Proof.
  steps; rewrite <- ?app_assoc; do 2 eexists;
    (split; [reflexivity|]); repeat constructor.
Qed.

End Actions.

(** ** The default configuration, resolved *)

Section Defaults.

Variables (client : HttpClient) (params : gmap string value)
          (mkFail : value → any).

Local Abbreviation p := (defaultProvider client params mkFail).

Lemma default_login_request :
  getConfigValue p "login.method" = VStr "post"
  ∧ getActionEndpoint p "login" = VStr "/api/auth/login"
  ∧ getConfigValue p "login.alwaysFail" = VBool false.
Proof. repeat split; vm_compute; reflexivity. Qed.

Lemma default_login_redirect :
  getConfigValue p "login.redirect.success" = VStr "/"
  ∧ getConfigValue p "login.redirect.failure" = VNull.
Proof. repeat split; vm_compute; reflexivity. Qed.

Lemma default_resetPass_request :
  getConfigValue p "resetPass.method" = VStr "put"
  ∧ getActionEndpoint p "resetPass" = VStr "/api/auth/reset-pass"
  ∧ to_string (getConfigValue p "resetPass.resetPasswordTokenKey")
    = "reset_password_token".
Proof. repeat split; vm_compute; reflexivity. Qed.

Lemma default_token_key : getConfigValue p "token.key" = VStr "data.token".
Proof. vm_compute; reflexivity. Qed.

Lemma default_tokenGetter module res :
  tokenGetter p module (Response res)
  = getDeepFromObject (body res) "data.token" None.
Proof. reflexivity. Qed.

Lemma default_login_messages res :
  walk (body res) ["data"; "messages"] = None →
  messagesGetter p "login" (Response res)
  = strings ["You have been successfully logged in."].
Proof.
  intros Hwalk.
  change (messagesGetter p "login" (Response res))
    with (match walk (body res) ["data"; "messages"] with
          | Some v => v
          | None => strings ["You have been successfully logged in."]
          end).
  by rewrite Hwalk.
Qed.

End Defaults.

(** ** Results on the success branch *)

(** C5. When the client answers with a response, the flag is not set and (for
    login, register and refreshToken) the token getter extracts a truthy
    token, the result is [success = true] with the raw response, the action's
    [redirect.success], no errors, the messages of the messages getter and,
    for login, register and refreshToken only, the token of the token getter.
    With the default configuration, a login answered by
    [{status: 200, body: {data: {token: "abc"}}}] gives token ["abc"], the
    default login message and redirect ["/"]. *)
Theorem success_branch_result :
  (∀ this data t res,
     http this (getConfigValue this "login.method")
       (getActionEndpoint this "login") (Some data) = inl res →
     is_truthy (getConfigValue this "login.alwaysFail") = false →
     is_truthy (tokenGetter this "login" (Response res)) = true →
     yields (authenticate this data) t
       {| success := true;
          response := Response res;
          redirect := getConfigValue this "login.redirect.success";
          errors := VArr [];
          messages := messagesGetter this "login" (Response res);
          token := tokenGetter this "login" (Response res) |}) ∧
  (∀ this data t res,
     http this (getConfigValue this "register.method")
       (getActionEndpoint this "register") (Some data) = inl res →
     is_truthy (getConfigValue this "register.alwaysFail") = false →
     is_truthy (tokenGetter this "register" (Response res)) = true →
     yields (register this data) t
       {| success := true;
          response := Response res;
          redirect := getConfigValue this "register.redirect.success";
          errors := VArr [];
          messages := messagesGetter this "register" (Response res);
          token := tokenGetter this "register" (Response res) |}) ∧
  (∀ this data t res,
     http this (getConfigValue this "refreshToken.method")
       (getActionEndpoint this "refreshToken") (Some data) = inl res →
     is_truthy (getConfigValue this "refreshToken.alwaysFail") = false →
     is_truthy (tokenGetter this "refreshToken" (Response res)) = true →
     yields (refreshToken this data) t
       {| success := true;
          response := Response res;
          redirect := getConfigValue this "refreshToken.redirect.success";
          errors := VArr [];
          messages := messagesGetter this "refreshToken" (Response res);
          token := tokenGetter this "refreshToken" (Response res) |}) ∧
  (∀ this data t res,
     http this (getConfigValue this "requestPass.method")
       (getActionEndpoint this "requestPass") (Some data) = inl res →
     is_truthy (getConfigValue this "requestPass.alwaysFail") = false →
     yields (requestPassword this data) t
       {| success := true;
          response := Response res;
          redirect := getConfigValue this "requestPass.redirect.success";
          errors := VArr [];
          messages := messagesGetter this "requestPass" (Response res);
          token := VUndefined |}) ∧
  (∀ this data t res,
     http this (getConfigValue this "resetPass.method")
       (getActionEndpoint this "resetPass")
       (Some (VObj (inject_reset_token this data))) = inl res →
     is_truthy (getConfigValue this "resetPass.alwaysFail") = false →
     yields (resetPassword this data) t
       {| success := true;
          response := Response res;
          redirect := getConfigValue this "resetPass.redirect.success";
          errors := VArr [];
          messages := messagesGetter this "resetPass" (Response res);
          token := VUndefined |}) ∧
  (∀ this t res,
     (if is_truthy (getActionEndpoint this "logout")
      then ∃ r, http this (getConfigValue this "logout.method")
                  (getActionEndpoint this "logout") None = inl r
                ∧ res = Response r
      else res = Plain (VObj ∅)) →
     is_truthy (getConfigValue this "logout.alwaysFail") = false →
     yields (logout this) t
       {| success := true;
          response := res;
          redirect := getConfigValue this "logout.redirect.success";
          errors := VArr [];
          messages := messagesGetter this "logout" res;
          token := VUndefined |}) ∧
  (∀ client params mkFail data t,
     let res := {| status := 200;
                   body := obj [("data", obj [("token", VStr "abc")])] |} in
     client (VStr "post") (VStr "/api/auth/login") (Some data) = inl res →
     yields (authenticate (defaultProvider client params mkFail) data) t
       {| success := true;
          response := Response res;
          redirect := VStr "/";
          errors := VArr [];
          messages := strings ["You have been successfully logged in."];
          token := VStr "abc" |}).
Proof.
  split_and!;
    [ exact authenticate_success | exact register_success
    | exact refreshToken_success | exact requestPassword_success
    | exact resetPassword_success | exact logout_success | ].
  intros client params mkFail data t res Hres.
  destruct (default_login_request client params mkFail) as (Em & Eu & Ef).
  destruct (default_login_redirect client params mkFail) as (Es & _).
  pose proof (authenticate_success
                (defaultProvider client params mkFail) data t res) as Hrun.
  rewrite Em, Eu, Ef, Es, default_tokenGetter in Hrun.
  rewrite (default_login_messages client params mkFail res) in Hrun
    by (vm_compute; reflexivity).
  apply Hrun; [exact Hres | reflexivity | vm_compute; reflexivity].
Qed.

(** ** Login without a token, default configuration *)

(** C2, as the code has it. With the default configuration, when the client
    answers the login request with a response whose body has nothing truthy
    under [data.token], the result is [success = false] with
    [errors = ["Something went wrong."]]: token validation throws an [Error],
    which is not an [HttpErrorResponse], so the login [defaultErrors] are not
    consulted. The warning written names the key ['data.token']. *)
Theorem login_without_token client params mkFail data t res :
  client (VStr "post") (VStr "/api/auth/login") (Some data) = inl res →
  is_truthy (getDeepFromObject (body res) "data.token" None) = false →
  authenticate (defaultProvider client params mkFail) data t
  = (Next {| success := false;
             response := JsError "Could not extract token from the response.";
             redirect := VNull;
             errors := VArr [VStr "Something went wrong."];
             messages := VUndefined;
             token := VUndefined |},
     (t ++ [HttpRequest (VStr "post") (VStr "/api/auth/login") (Some data);
            GetterCall "token.getter" "login" (Response res);
            ConsoleWarn (token_warning (VStr "data.token")
                           default_token_getter_source)])%list)
  ∧ ∃ before after,
      token_warning (VStr "data.token") default_token_getter_source
      = before +:+ "'data.token'" +:+ after.
Proof.
  intros Hres Htoken. split.
  - destruct (default_login_request client params mkFail) as (Em & Eu & Ef).
    destruct (default_login_redirect client params mkFail) as (_ & Er).
    run_pipeline.
    change (http (defaultProvider client params mkFail)) with client.
    rewrite Em, Eu, Hres, Ef. cbn [is_truthy].
    rewrite default_tokenGetter, Htoken. cbn [negb].
    rewrite Er, default_token_key. rewrite <- !app_assoc. reflexivity.
  - exists ("NbEmailPassAuthProvider:" +:+ newline +:+
            "                          Token is not provided under "),
           (" key" +:+ newline +:+
            "                          with getter '" +:+
            default_token_getter_source +:+
            "', check your auth configuration.").
    reflexivity.
Qed.

(** ** The body of the reset-password request *)

(** C8. The one request resetPassword hands to the client carries a body in
    which the field named by [resetPass.resetPasswordTokenKey] holds the
    query parameter of that name, and every other field is as the caller
    submitted it. With the default configuration and the query parameter
    [reset_password_token=XYZ] the body has [reset_password_token: "XYZ"]. *)
Theorem resetPassword_sends_query_token :
  (∀ this data t v,
     let key :=
       to_string (getConfigValue this "resetPass.resetPasswordTokenKey") in
     queryParams this !! key = Some v →
     ∃ r sent rest,
       resetPassword this data t
       = (Next r,
          (t ++ HttpRequest (getConfigValue this "resetPass.method")
                  (getActionEndpoint this "resetPass") (Some (VObj sent))
                :: rest)%list)
       ∧ Forall (λ e, is_request e = false) rest
       ∧ sent !! key = Some v
       ∧ ∀ k, k ≠ key → sent !! k = default ∅ data !! k) ∧
  (∀ client params mkFail data t,
     params !! "reset_password_token" = Some (VStr "XYZ") →
     ∃ r sent rest,
       resetPassword (defaultProvider client params mkFail) data t
       = (Next r,
          (t ++ HttpRequest (VStr "put") (VStr "/api/auth/reset-pass")
                  (Some (VObj sent)) :: rest)%list)
       ∧ sent !! "reset_password_token" = Some (VStr "XYZ")
       ∧ ∀ k, k ≠ "reset_password_token" → sent !! k = default ∅ data !! k).
Proof.
  split.
  - intros this data t v key Hv.
    destruct (resetPassword_request this data t) as (r & rest & Hrun & Hrest).
    exists r, (inject_reset_token this data), rest.
    split_and!; [exact Hrun | exact Hrest | | ].
    + subst key. rewrite inject_reset_token_key. by rewrite Hv.
    + intros k Hk. by apply inject_reset_token_other.
  - intros client params mkFail data t Hv.
    destruct (default_resetPass_request client params mkFail) as (Em & Eu & Ek).
    destruct (resetPassword_request (defaultProvider client params mkFail)
                data t) as (r & rest & Hrun & _).
    exists r, (inject_reset_token (defaultProvider client params mkFail) data),
           rest.
    rewrite Em, Eu in Hrun. split_and!; [exact Hrun | | ].
    + pose proof (inject_reset_token_key
                    (defaultProvider client params mkFail) data) as Hkey.
      cbv zeta in Hkey. rewrite Ek in Hkey. rewrite Hkey.
      change (queryParams (defaultProvider client params mkFail)) with params.
      by rewrite Hv.
    + intros k Hk. apply inject_reset_token_other. by rewrite Ek.
Qed.

(** C9. The field named by [resetPass.resetPasswordTokenKey] is written in
    every case: it holds the query parameter, or [undefined] when the route
    has no such parameter, whatever the caller put there. All other fields
    of the caller's object reach the client unchanged. *)
Theorem resetPassword_overwrites_token_field this data t :
  let key :=
    to_string (getConfigValue this "resetPass.resetPasswordTokenKey") in
  ∃ r sent rest,
    resetPassword this data t
    = (Next r,
       (t ++ HttpRequest (getConfigValue this "resetPass.method")
               (getActionEndpoint this "resetPass") (Some (VObj sent))
             :: rest)%list)
    ∧ Forall (λ e, is_request e = false) rest
    ∧ sent !! key = Some (default VUndefined (queryParams this !! key))
    ∧ (queryParams this !! key = None → sent !! key = Some VUndefined)
    ∧ ∀ k, k ≠ key → sent !! k = default ∅ data !! k.
Proof.
  intros key.
  destruct (resetPassword_request this data t) as (r & rest & Hrun & Hrest).
  exists r, (inject_reset_token this data), rest.
  split_and!; [exact Hrun | exact Hrest | | | ].
  - apply inject_reset_token_key.
  - intros Hnone. subst key. rewrite inject_reset_token_key. by rewrite Hnone.
  - intros k Hk. by apply inject_reset_token_other.
Qed.

(** ** The properties on concrete scenarios *)

Lemma alwaysFail_forces_failure_witness :
  enabled register_always_failing "register.alwaysFail"
  ∧ fails (register register_always_failing credentials) [].
Proof.
  split; [vm_compute; reflexivity|].
  apply (proj1 (proj2 (alwaysFail_forces_failure register_always_failing))).
  vm_compute; reflexivity.
Defined.

Lemma missing_token_fails_witness :
  is_truthy (tokenGetter (answering (obj [])) "login"
               (Response {| status := 200; body := obj [] |})) = false
  ∧ fails (authenticate (answering (obj [])) credentials) [].
Proof.
  split; [vm_compute; reflexivity|].
  apply (proj1 (missing_token_fails (answering (obj []))) credentials []
           {| status := 200; body := obj [] |});
    vm_compute; reflexivity.
Defined.

Lemma failures_are_recovered_witness :
  ∃ r t', authenticate unreachable credentials [] = (Next r, t')
          ∧ success r = false.
Proof.
  destruct (proj1 (failures_are_recovered unreachable) credentials [])
    as (r & t' & Hrun & Hfail).
  exists r, t'. split; [exact Hrun|].
  apply Hfail. right; right; left.
  exists (JsError "Network unreachable").
  split; [vm_compute; reflexivity | intros e He; discriminate He].
Defined.

Lemma alwaysFail_precedes_token_validation_witness :
  ∃ r extra,
    authenticate login_always_failing credentials [] = (Next r, extra)
    ∧ response r = fail401 credentials
    ∧ Forall (λ e, is_token_getter_call e = false ∧ is_warning e = false) extra.
Proof.
  destruct (proj1 (alwaysFail_precedes_token_validation login_always_failing)
              credentials [] {| status := 200; body := token_body |})
    as (r & extra & Hrun & _ & Hresp & Hquiet);
    [vm_compute; reflexivity | vm_compute; reflexivity |].
  exists r, extra. split_and!; [exact Hrun | exact Hresp | exact Hquiet].
Defined.

Lemma failure_branch_errors_witness :
  ∃ r t', requestPassword rejecting credentials [] = (Next r, t')
          ∧ response r = ErrorResponse unknown_email
          ∧ errors r = strings ["Unknown email"].
Proof.
  destruct (proj1 (proj2 (proj2 (failure_branch_errors rejecting)))
              credentials [] (ErrorResponse unknown_email))
    as (r & t' & Hrun & _ & Hresponse & Hstructured & _).
  { left. vm_compute; reflexivity. }
  exists r, t'. split_and!; [exact Hrun | exact Hresponse |].
  rewrite (Hstructured unknown_email eq_refl). vm_compute; reflexivity.
Defined.

Lemma success_branch_result_witness :
  yields (authenticate (defaultProvider (ok_client token_body) ∅ fail401)
            credentials) []
    {| success := true;
       response := Response {| status := 200; body := token_body |};
       redirect := VStr "/";
       errors := VArr [];
       messages := strings ["You have been successfully logged in."];
       token := VStr "abc" |}.
Proof.
  apply (proj2 (proj2 (proj2 (proj2 (proj2 (proj2 success_branch_result)))))
           (ok_client token_body) ∅ fail401 credentials []).
  reflexivity.
Defined.

Lemma logout_without_url_witness :
  is_truthy (getActionEndpoint local_logout "logout") = false
  ∧ ∃ r extra, logout local_logout [] = (Next r, extra)
               ∧ Forall (λ e, is_request e = false) extra.
Proof.
  split; [vm_compute; reflexivity|].
  destruct (logout_without_url local_logout [])
    as (r & extra & Hrun & Hquiet & _); [vm_compute; reflexivity|].
  exists r, extra. split; [exact Hrun | exact Hquiet].
Defined.

Lemma login_without_token_witness :
  ∃ t', authenticate (defaultProvider (ok_client (obj [])) ∅ fail401)
          credentials []
        = (Next {| success := false;
                   response :=
                     JsError "Could not extract token from the response.";
                   redirect := VNull;
                   errors := VArr [VStr "Something went wrong."];
                   messages := VUndefined;
                   token := VUndefined |}, t').
Proof.
  eexists.
  apply (login_without_token (ok_client (obj [])) ∅ fail401 credentials []
           {| status := 200; body := obj [] |});
    vm_compute; reflexivity.
Defined.

Lemma resetPassword_sends_query_token_witness :
  ∃ r sent rest,
    resetPassword (reset_route {[ "reset_password_token" := VStr "XYZ" ]})
      (Some new_password) []
    = (Next r,
       HttpRequest (VStr "put") (VStr "/api/auth/reset-pass")
         (Some (VObj sent)) :: rest)
    ∧ sent !! "reset_password_token" = Some (VStr "XYZ")
    ∧ sent !! "password" = Some (VStr "new").
Proof.
  destruct (proj2 resetPassword_sends_query_token
              (ok_client (obj [])) {[ "reset_password_token" := VStr "XYZ" ]}
              fail401 (Some new_password) [])
    as (r & sent & rest & Hrun & Hkey & Hother);
    [vm_compute; reflexivity|].
  exists r, sent, rest. split_and!; [exact Hrun | exact Hkey |].
  rewrite Hother by discriminate. vm_compute; reflexivity.
Defined.

Lemma resetPassword_overwrites_token_field_witness :
  ∃ r sent rest,
    resetPassword (reset_route ∅) (Some new_password) []
    = (Next r,
       HttpRequest (VStr "put") (VStr "/api/auth/reset-pass")
         (Some (VObj sent)) :: rest)
    ∧ new_password !! "reset_password_token" = Some (VStr "stale")
    ∧ sent !! "reset_password_token" = Some VUndefined
    ∧ sent !! "password" = Some (VStr "new").
Proof.
  destruct (resetPassword_overwrites_token_field (reset_route ∅)
              (Some new_password) [])
    as (r & sent & rest & Hrun & _ & _ & Hnone & Hother).
  exists r, sent, rest.
  split_and!; [exact Hrun | vm_compute; reflexivity | |].
  - apply Hnone. vm_compute; reflexivity.
  - rewrite (Hother "password") by (vm_compute; discriminate).
    vm_compute; reflexivity.
Defined.

(** ** Where the code departs from the wording *)

(** C2. With the default configuration and the response [{status: 200,
    body: {}}], the errors of the failed login are ["Something went wrong."]
    and not the login [defaultErrors]. *)
Lemma login_without_token_errors_differ :
  ∃ r t',
    authenticate (defaultProvider (ok_client (obj [])) ∅ fail401)
      credentials [] = (Next r, t')
    ∧ success r = false
    ∧ errors r = strings ["Something went wrong."]
    ∧ errors r
      ≠ strings ["Login/Email combination is not correct, please try again."].
Proof.
  eexists _, _. split; [vm_compute; reflexivity|].
  cbn [success errors]. split_and!; [reflexivity | reflexivity | discriminate].
Qed.

(** C3. The claim has no request when the configured logout endpoint is
    empty or [null]. With the default [baseEndpoint] the code sends one all
    the same: the guard tests the URL with the base prepended, so the request
    goes to ["/api/auth/"], respectively ["/api/auth/null"]. *)
Lemma logout_empty_endpoint_still_requests :
  (getConfigValue (logout_endpoint (VStr "")) "logout.endpoint" = VStr ""
   ∧ ∃ r rest,
       logout (logout_endpoint (VStr "")) []
       = (Next r,
          HttpRequest (VStr "delete") (VStr "/api/auth/") None :: rest))
  ∧ (getConfigValue (logout_endpoint VNull) "logout.endpoint" = VNull
     ∧ ∃ r rest,
         logout (logout_endpoint VNull) []
         = (Next r,
            HttpRequest (VStr "delete") (VStr "/api/auth/null") None :: rest)).
Proof.
  split_and!; try (vm_compute; reflexivity);
    eexists _, _; vm_compute; reflexivity.
Qed.

(** ** Further properties of the actions *)

(** Close a goal about a finished run: the run equation fixes the result. *)
Ltac finished := intros; simplify_eq/=; try done.

Section Runs.

Variable this : NbEmailPassAuthProvider.

(** *** Requests *)

(** X1. authenticate, register, requestPassword and refreshToken hand the
    client exactly one request, before any getter is called: the action's
    method, the URL of [getActionEndpoint] and the caller's [data], untouched,
    as body. Nothing is retried, whatever the outcome. *)
Theorem one_request_per_action :
  (∀ data t, ∃ r rest,
     authenticate this data t
     = (Next r,
        (t ++ HttpRequest (getConfigValue this "login.method")
                (getActionEndpoint this "login") (Some data) :: rest)%list)
     ∧ Forall (λ e, is_request e = false) rest) ∧
  (∀ data t, ∃ r rest,
     register this data t
     = (Next r,
        (t ++ HttpRequest (getConfigValue this "register.method")
                (getActionEndpoint this "register") (Some data) :: rest)%list)
     ∧ Forall (λ e, is_request e = false) rest) ∧
  (∀ data t, ∃ r rest,
     requestPassword this data t
     = (Next r,
        (t ++ HttpRequest (getConfigValue this "requestPass.method")
                (getActionEndpoint this "requestPass") (Some data)
              :: rest)%list)
     ∧ Forall (λ e, is_request e = false) rest) ∧
  (∀ data t, ∃ r rest,
     refreshToken this data t
     = (Next r,
        (t ++ HttpRequest (getConfigValue this "refreshToken.method")
                (getActionEndpoint this "refreshToken") (Some data)
              :: rest)%list)
     ∧ Forall (λ e, is_request e = false) rest).
Proof.
  repeat split; intros data t; steps; rewrite <- ?app_assoc; do 2 eexists;
    (split; [reflexivity|]); repeat constructor.
Qed.

(** *** When an action succeeds *)

(** X3. A login, registration or token refresh succeeds exactly when the
    client answered with a response, the action's [alwaysFail] flag is falsy
    and the token getter finds a truthy token in that response. *)
Theorem token_action_succeeds_iff :
  (∀ data t r t', authenticate this data t = (Next r, t') →
     (success r = true ↔
      ∃ res, http this (getConfigValue this "login.method")
               (getActionEndpoint this "login") (Some data) = inl res
             ∧ is_truthy (getConfigValue this "login.alwaysFail") = false
             ∧ is_truthy (tokenGetter this "login" (Response res)) = true)) ∧
  (∀ data t r t', register this data t = (Next r, t') →
     (success r = true ↔
      ∃ res, http this (getConfigValue this "register.method")
               (getActionEndpoint this "register") (Some data) = inl res
             ∧ is_truthy (getConfigValue this "register.alwaysFail") = false
             ∧ is_truthy (tokenGetter this "register" (Response res)) = true)) ∧
  (∀ data t r t', refreshToken this data t = (Next r, t') →
     (success r = true ↔
      ∃ res, http this (getConfigValue this "refreshToken.method")
               (getActionEndpoint this "refreshToken") (Some data) = inl res
             ∧ is_truthy (getConfigValue this "refreshToken.alwaysFail") = false
             ∧ is_truthy (tokenGetter this "refreshToken" (Response res))
               = true)).
Proof.
  repeat split; revert H; steps; finished;
    try (eexists; split_and!; [reflexivity | done | done]);
    destruct_and?;
    repeat match goal with H : ∃ _, _ |- _ => destruct H end;
    destruct_and?; simplify_eq; congruence.
Qed.

(** X4. requestPassword and resetPassword succeed exactly when the client
    answered with a response and the flag is falsy; no token is looked for.
    logout succeeds exactly when the flag is falsy and, if its URL is truthy,
    the client answered with a response. *)
Theorem tokenless_action_succeeds_iff :
  (∀ data t r t', requestPassword this data t = (Next r, t') →
     (success r = true ↔
      ∃ res, http this (getConfigValue this "requestPass.method")
               (getActionEndpoint this "requestPass") (Some data) = inl res
             ∧ is_truthy (getConfigValue this "requestPass.alwaysFail")
               = false)) ∧
  (∀ data t r t', resetPassword this data t = (Next r, t') →
     (success r = true ↔
      ∃ res, http this (getConfigValue this "resetPass.method")
               (getActionEndpoint this "resetPass")
               (Some (VObj (inject_reset_token this data))) = inl res
             ∧ is_truthy (getConfigValue this "resetPass.alwaysFail")
               = false)) ∧
  (∀ t r t', logout this t = (Next r, t') →
     (success r = true ↔
      is_truthy (getConfigValue this "logout.alwaysFail") = false
      ∧ (is_truthy (getActionEndpoint this "logout") = true →
         ∃ res, http this (getConfigValue this "logout.method")
                  (getActionEndpoint this "logout") None = inl res))).
Proof.
  repeat split; revert H; steps; finished;
    try (eexists; split_and!; [reflexivity | done]);
    try (intros _; eexists; reflexivity);
    try (eexists; reflexivity);
    destruct_and?;
    repeat match goal with
           | H : ∃ _, _ |- _ => destruct H
           | H : true = true → _ |- _ => specialize (H eq_refl)
           end;
    destruct_and?; simplify_eq; congruence.
Qed.

(** *** What a failed result carries *)

(** X5. A failed result of any action carries the action's
    [redirect.failure] and no token. *)
Theorem failed_result_shape :
  let failed (module : string) (r : NbAuthResult) : Prop :=
    success r = false →
    redirect r = getConfigValue this (module +:+ ".redirect.failure")
    ∧ token r = VUndefined in
  (∀ data t r t', authenticate this data t = (Next r, t') →
     failed "login" r) ∧
  (∀ data t r t', register this data t = (Next r, t') →
     failed "register" r) ∧
  (∀ data t r t', requestPassword this data t = (Next r, t') →
     failed "requestPass" r) ∧
  (∀ data t r t', resetPassword this data t = (Next r, t') →
     failed "resetPass" r) ∧
  (∀ t r t', logout this t = (Next r, t') → failed "logout" r) ∧
  (∀ data t r t', refreshToken this data t = (Next r, t') →
     failed "refreshToken" r).
Proof.
  intros failed; subst failed; cbv beta.
  repeat split; revert H0; revert H; steps; finished.
Qed.

(** X6. The [response] of a failed result tells what went wrong. If the
    client failed, it is what the client failed with. If the client answered
    and the flag is set, it is [createFailResponse(data)] for login, register
    and refreshToken, and [createFailResponse()] for the other three. If the
    client answered, the flag is falsy and the action validates the token, it
    is the [Error] "Could not extract token from the response.". *)
Theorem failed_response_origin :
  (∀ data t r t', authenticate this data t = (Next r, t') →
     success r = false →
     match http this (getConfigValue this "login.method")
             (getActionEndpoint this "login") (Some data) with
     | inr e => response r = e
     | inl _ =>
         if is_truthy (getConfigValue this "login.alwaysFail")
         then response r = createFailResponse this data
         else response r
              = JsError "Could not extract token from the response."
     end) ∧
  (∀ data t r t', register this data t = (Next r, t') →
     success r = false →
     match http this (getConfigValue this "register.method")
             (getActionEndpoint this "register") (Some data) with
     | inr e => response r = e
     | inl _ =>
         if is_truthy (getConfigValue this "register.alwaysFail")
         then response r = createFailResponse this data
         else response r
              = JsError "Could not extract token from the response."
     end) ∧
  (∀ data t r t', refreshToken this data t = (Next r, t') →
     success r = false →
     match http this (getConfigValue this "refreshToken.method")
             (getActionEndpoint this "refreshToken") (Some data) with
     | inr e => response r = e
     | inl _ =>
         if is_truthy (getConfigValue this "refreshToken.alwaysFail")
         then response r = createFailResponse this data
         else response r
              = JsError "Could not extract token from the response."
     end) ∧
  (∀ data t r t', requestPassword this data t = (Next r, t') →
     success r = false →
     match http this (getConfigValue this "requestPass.method")
             (getActionEndpoint this "requestPass") (Some data) with
     | inr e => response r = e
     | inl _ => response r = createFailResponse this VUndefined
     end) ∧
  (∀ data t r t', resetPassword this data t = (Next r, t') →
     success r = false →
     match http this (getConfigValue this "resetPass.method")
             (getActionEndpoint this "resetPass")
             (Some (VObj (inject_reset_token this data))) with
     | inr e => response r = e
     | inl _ => response r = createFailResponse this VUndefined
     end) ∧
  (∀ t r t', logout this t = (Next r, t') →
     success r = false →
     if is_truthy (getActionEndpoint this "logout")
     then match http this (getConfigValue this "logout.method")
                  (getActionEndpoint this "logout") None with
          | inr e => response r = e
          | inl _ => response r = createFailResponse this VUndefined
          end
     else response r = createFailResponse this VUndefined).
Proof.
  split_and!; intros until t'; steps; finished.
Qed.

(** *** Calls of the getters *)

(** X7. On a successful login, registration or token refresh the getters are
    called on the response the result carries, in this order after the
    request: the token getter (validation), the messages getter, the token
    getter again. On a successful requestPassword, resetPassword or logout
    only the messages getter is called; a logout without URL has no request
    before it. *)
Theorem getter_calls_on_success :
  (∀ data t r t', authenticate this data t = (Next r, t') →
     success r = true →
     t' = (t ++ [HttpRequest (getConfigValue this "login.method")
                   (getActionEndpoint this "login") (Some data);
                 GetterCall "token.getter" "login" (response r);
                 GetterCall "messages.getter" "login" (response r);
                 GetterCall "token.getter" "login" (response r)])%list) ∧
  (∀ data t r t', register this data t = (Next r, t') →
     success r = true →
     t' = (t ++ [HttpRequest (getConfigValue this "register.method")
                   (getActionEndpoint this "register") (Some data);
                 GetterCall "token.getter" "register" (response r);
                 GetterCall "messages.getter" "register" (response r);
                 GetterCall "token.getter" "register" (response r)])%list) ∧
  (∀ data t r t', refreshToken this data t = (Next r, t') →
     success r = true →
     t' = (t ++ [HttpRequest (getConfigValue this "refreshToken.method")
                   (getActionEndpoint this "refreshToken") (Some data);
                 GetterCall "token.getter" "refreshToken" (response r);
                 GetterCall "messages.getter" "refreshToken" (response r);
                 GetterCall "token.getter" "refreshToken" (response r)])%list) ∧
  (∀ data t r t', requestPassword this data t = (Next r, t') →
     success r = true →
     t' = (t ++ [HttpRequest (getConfigValue this "requestPass.method")
                   (getActionEndpoint this "requestPass") (Some data);
                 GetterCall "messages.getter" "requestPass" (response r)])%list) ∧
  (∀ data t r t', resetPassword this data t = (Next r, t') →
     success r = true →
     t' = (t ++ [HttpRequest (getConfigValue this "resetPass.method")
                   (getActionEndpoint this "resetPass")
                   (Some (VObj (inject_reset_token this data)));
                 GetterCall "messages.getter" "resetPass" (response r)])%list) ∧
  (∀ t r t', logout this t = (Next r, t') →
     success r = true →
     t' = (t ++ (if is_truthy (getActionEndpoint this "logout")
                 then [HttpRequest (getConfigValue this "logout.method")
                         (getActionEndpoint this "logout") None]
                 else [])
             ++ [GetterCall "messages.getter" "logout" (response r)])%list).
Proof.
  split_and!; intros until t'; steps; finished;
    by rewrite <- ?app_assoc.
Qed.

(** X8. requestPassword, resetPassword and logout never call the token
    getter and never write the token warning, whatever the outcome; their
    result has no token. *)
Theorem tokenless_actions_never_validate :
  (∀ data t, ∃ r extra,
     requestPassword this data t = (Next r, (t ++ extra)%list)
     ∧ Forall (λ e, is_token_getter_call e = false ∧ is_warning e = false)
         extra
     ∧ token r = VUndefined) ∧
  (∀ data t, ∃ r extra,
     resetPassword this data t = (Next r, (t ++ extra)%list)
     ∧ Forall (λ e, is_token_getter_call e = false ∧ is_warning e = false)
         extra
     ∧ token r = VUndefined) ∧
  (∀ t, ∃ r extra,
     logout this t = (Next r, (t ++ extra)%list)
     ∧ Forall (λ e, is_token_getter_call e = false ∧ is_warning e = false)
         extra
     ∧ token r = VUndefined).
Proof.
  split_and!; intros; steps; rewrite <- ?app_assoc; do 2 eexists;
    (split; [first [reflexivity | rewrite app_nil_r; reflexivity]|]);
    (split; [repeat constructor | reflexivity]).
Qed.


(** *** The URL of an action *)

Lemma getActionEndpoint_string (action b : string) :
  getConfigValue this "baseEndpoint" = VStr b →
  getActionEndpoint this action
  = VStr (b +:+ to_string (getConfigValue this (action +:+ ".endpoint"))).
Proof. intros Hb. unfold getActionEndpoint. rewrite Hb. reflexivity. Qed.

(** X2. When [baseEndpoint] is a string, the URL of logout is that string
    followed by the text of [logout.endpoint] (["null"] for [null]). logout
    hands the client no request if this URL is empty, and otherwise exactly
    one request, first, to this URL, with the logout method and no body. *)
Theorem logout_request_guard (b : string) t :
  getConfigValue this "baseEndpoint" = VStr b →
  ∃ r extra,
    logout this t = (Next r, (t ++ extra)%list)
    ∧ let url := b +:+ to_string (getConfigValue this "logout.endpoint") in
      if String.eqb url ""
      then Forall (λ e, is_request e = false) extra
      else ∃ rest,
          extra = HttpRequest (getConfigValue this "logout.method")
                    (VStr url) None :: rest
          ∧ Forall (λ e, is_request e = false) rest.
Proof.
  intros Hb. pose proof (getActionEndpoint_string "logout" b Hb) as Hurl.
  change ("logout" +:+ ".endpoint") with "logout.endpoint" in Hurl.
  cbv zeta.
  generalize dependent (b +:+ to_string (getConfigValue this "logout.endpoint")).
  intros url Hurl. run_pipeline. rewrite Hurl. cbn [is_truthy].
  destruct (String.eqb url ""); cbn [negb]; repeat step;
    rewrite <- ?app_assoc; do 2 eexists;
    (split; [first [reflexivity | rewrite app_nil_r; reflexivity]|]);
    first [by repeat constructor
          | eexists; split; [reflexivity | repeat constructor]].
Qed.

(** *** The object resetPassword works on *)

(** X10. resetPassword called without data sends a body whose only field is
    the one named by [resetPass.resetPasswordTokenKey], holding the query
    parameter of that name ([undefined] if there is none). *)
Theorem resetPassword_without_data t :
  let key :=
    to_string (getConfigValue this "resetPass.resetPasswordTokenKey") in
  ∃ r rest,
    resetPassword this None t
    = (Next r,
       (t ++ HttpRequest (getConfigValue this "resetPass.method")
               (getActionEndpoint this "resetPass")
               (Some (VObj {[ key := default VUndefined
                                       (queryParams this !! key) ]}))
             :: rest)%list)
    ∧ Forall (λ e, is_request e = false) rest.
Proof.
  intros key.
  destruct (resetPassword_request this None t) as (r & rest & Hrun & Hrest).
  exists r, rest. split; [|exact Hrest].
  rewrite Hrun. unfold inject_reset_token. cbn [default].
  by rewrite insert_empty.
Qed.

(** X11. The body resetPassword sends has the caller's fields and the token
    field, no others. It is the caller's object after the call, and passing
    it again sends the same body: the token field is rewritten to what it
    already holds. *)
Theorem resetPassword_resubmitted data t :
  let key :=
    to_string (getConfigValue this "resetPass.resetPasswordTokenKey") in
  ∃ r (sent : gmap string value) rest,
    resetPassword this data t
    = (Next r,
       (t ++ HttpRequest (getConfigValue this "resetPass.method")
               (getActionEndpoint this "resetPass") (Some (VObj sent))
             :: rest)%list)
    ∧ dom sent = {[ key ]} ∪ dom (default ∅ data)
    ∧ ∀ t2, ∃ r2 rest2,
        resetPassword this (Some sent) t2
        = (Next r2,
           (t2 ++ HttpRequest (getConfigValue this "resetPass.method")
                    (getActionEndpoint this "resetPass") (Some (VObj sent))
                 :: rest2)%list).
Proof.
  intros key.
  destruct (resetPassword_request this data t) as (r & rest & Hrun & _).
  exists r, (inject_reset_token this data), rest.
  split_and!; [exact Hrun | |].
  - unfold inject_reset_token. by rewrite dom_insert_L.
  - intros t2.
    destruct (resetPassword_request this
                (Some (inject_reset_token this data)) t2)
      as (r2 & rest2 & Hrun2 & _).
    assert (inject_reset_token this (Some (inject_reset_token this data))
            = inject_reset_token this data) as Hsame
      by (unfold inject_reset_token; cbv zeta; cbn [default from_option id];
          by rewrite insert_insert_eq).
    rewrite Hsame in Hrun2. by exists r2, rest2.
Qed.

End Runs.

(** *** What an action reads *)

(** Split the agreement on a list of keys into one equation per key. *)
Ltac per_key :=
  repeat match goal with
         | H : Forall _ (_ :: _) |- _ => inversion_clear H
         | H : Forall _ [] |- _ => clear H
         end.

Ltac same_run :=
  run_pipeline;
  unfold getActionEndpoint, tokenGetter, errorsGetter, messagesGetter,
    inject_reset_token;
  run_pipeline;
  repeat match goal with
         | H : getConfigValue _ _ = getConfigValue _ _ |- _ =>
             rewrite ?H; clear H
         | H : _ ?p = _ ?q |- _ => rewrite ?H; clear H
         end;
  reflexivity.

(** X12. An action depends on the configuration only through its own keys,
    [baseEndpoint] and the keys of the default getters: two providers with
    the same collaborators that agree on these keys run the action alike, on
    every input. Overriding the settings of one action leaves the others as
    they were. *)
Theorem actions_read_their_own_configuration p q :
  same_collaborators p q →
  (same_config_on p q (reads "login") →
     ∀ data t, authenticate p data t = authenticate q data t) ∧
  (same_config_on p q (reads "register") →
     ∀ data t, register p data t = register q data t) ∧
  (same_config_on p q (reads "requestPass") →
     ∀ data t, requestPassword p data t = requestPassword q data t) ∧
  (same_config_on p q
     ("resetPass.resetPasswordTokenKey" :: reads "resetPass") →
     ∀ data t, resetPassword p data t = resetPassword q data t) ∧
  (same_config_on p q (reads "logout") →
     ∀ t, logout p t = logout q t) ∧
  (same_config_on p q (reads "refreshToken") →
     ∀ data t, refreshToken p data t = refreshToken q data t).
Proof.
  intros (Htoken & Herrors & Hmessages & Hhttp & Hparams & Hfail).
  unfold same_config_on, reads.
  split_and!; intros Hcfg; intros; per_key; same_run.
Qed.


(** *** The further properties on concrete scenarios *)

(** Evaluate a run of a sample provider: [Hrun] equates it with its value. *)
Ltac evaluated Hrun :=
  match goal with
  | |- ∃ r t', ?run = _ ∧ _ =>
      let n := fresh "n" in
      let t' := fresh "t'" in
      let Hval := fresh "Hval" in
      let Hn := fresh "Hn" in
      let Ht := fresh "Ht" in
      destruct run as [n t'] eqn:Hrun;
      pose proof Hrun as Hval; vm_compute in Hval;
      injection Hval as Hn Ht; subst n t';
      eexists _, _; split; [reflexivity|]
  end.

Lemma logout_request_guard_witness :
  getConfigValue local_logout "baseEndpoint" = VStr ""
  ∧ ∃ r extra, logout local_logout [] = (Next r, extra)
               ∧ Forall (λ e, is_request e = false) extra.
Proof.
  split; [vm_compute; reflexivity|].
  destruct (logout_request_guard local_logout "" [])
    as (r & extra & Hrun & Hguard); [vm_compute; reflexivity|].
  exists r, extra. split; [exact Hrun|].
  vm_compute in Hguard. vm_compute. exact Hguard.
Defined.

Lemma token_action_succeeds_iff_witness :
  ∃ r t', authenticate (answering token_body) credentials [] = (Next r, t')
          ∧ success r = true.
Proof.
  evaluated Hrun.
  apply (proj1 (token_action_succeeds_iff (answering token_body))
           credentials [] _ _ Hrun).
  exists {| status := 200; body := token_body |}.
  split_and!; vm_compute; reflexivity.
Defined.

Lemma tokenless_action_succeeds_iff_witness :
  ∃ r t', requestPassword (answering (obj [])) credentials [] = (Next r, t')
          ∧ success r = true.
Proof.
  evaluated Hrun.
  apply (proj1 (tokenless_action_succeeds_iff (answering (obj [])))
           credentials [] _ _ Hrun).
  exists {| status := 200; body := obj [] |}.
  split_and!; vm_compute; reflexivity.
Defined.

Lemma failed_result_shape_witness :
  ∃ r t', authenticate unreachable credentials [] = (Next r, t')
          ∧ (redirect r = VNull ∧ token r = VUndefined).
Proof.
  evaluated Hrun.
  apply (proj1 (failed_result_shape unreachable) credentials [] _ _ Hrun).
  reflexivity.
Defined.

Lemma failed_response_origin_witness :
  ∃ r t', authenticate login_always_failing credentials [] = (Next r, t')
          ∧ response r = fail401 credentials.
Proof.
  evaluated Hrun.
  pose proof (proj1 (failed_response_origin login_always_failing)
                credentials [] _ _ Hrun eq_refl) as Horigin.
  vm_compute in Horigin. vm_compute. exact Horigin.
Defined.

Lemma getter_calls_on_success_witness :
  ∃ r t',
    authenticate (answering token_body) credentials [] = (Next r, t')
    ∧ t' = [HttpRequest (VStr "post") (VStr "/api/auth/login")
              (Some credentials);
            GetterCall "token.getter" "login" (response r);
            GetterCall "messages.getter" "login" (response r);
            GetterCall "token.getter" "login" (response r)].
Proof.
  evaluated Hrun.
  rewrite (proj1 (getter_calls_on_success (answering token_body))
             credentials [] _ _ Hrun eq_refl).
  vm_compute; reflexivity.
Defined.


Lemma actions_read_their_own_configuration_witness :
  same_config_on (answering token_body) register_always_failing (reads "login")
  ∧ authenticate (answering token_body) credentials []
    = authenticate register_always_failing credentials [].
Proof.
  assert (same_config_on (answering token_body) register_always_failing
            (reads "login")) as Hsame
    by (repeat constructor; vm_compute; reflexivity).
  split; [exact Hsame|].
  apply (proj1 (actions_read_their_own_configuration
                  (answering token_body) register_always_failing
                  ltac:(repeat split)) Hsame).
Defined.
